(** * Stall indicator and LED bar graph: a shallow embedding

    Two bare-metal C programs share one sampling and actuation substrate
    (a two-channel ADC, a 10-pin LED port and a slide switch, all memory
    mapped):

    - [stall_indicator.c] reads both ADC channels, converts them to an
      airspeed and an angle of attack in single precision, and lights all ten
      LEDs when the aircraft is stalling;
    - the bar-graph program reads the channel chosen by switch SW0 and lights a
      number of LEDs proportional to the 12-bit sample.

    Integers are modelled as [Z] with the 32-bit wrap-around written out,
    [float] as IEEE-754 binary32 through the parameterised operations of
    [SpecFloat] (round to nearest, ties to even, every operation rounded to
    single precision), and the accesses to the volatile registers as a small
    program monad whose runs produce the trace of loads and stores. *)

From Stdlib Require Import ZArith List Bool Lia QArith Qround Qabs.
From Stdlib Require Import Floats.SpecFloat.
Import ListNotations.

Local Open Scope Z_scope.

(** ** 32-bit machine integers *)

Module Int32.

Definition modulus : Z := 2 ^ 32.

(** Bit pattern of a value stored in a [uint32_t]. *)
Definition to_u32 (z : Z) : Z := z mod modulus.

(** Value of a 32-bit pattern read through an [int] lvalue. *)
Definition to_s32 (z : Z) : Z :=
  let w := to_u32 z in
  if w <? 2 ^ 31 then w else w - modulus.

(** Number of bits set among the 32 bits of a word. *)
Definition popcount (z : Z) : nat :=
  length (filter (Z.testbit z) (map Z.of_nat (seq 0 32))).

End Int32.

(** ** IEEE-754 binary32 *)

Module Float32.

Definition prec : Z := 24.
Definition emax : Z := 128.

Definition f32 : Type := spec_float.

Definition fmul : f32 -> f32 -> f32 := SFmul prec emax.
Definition fdiv : f32 -> f32 -> f32 := SFdiv prec emax.
Definition fsub : f32 -> f32 -> f32 := SFsub prec emax.
Definition fsqrt : f32 -> f32 := SFsqrt prec emax.
Definition flt : f32 -> f32 -> bool := SFltb.
Definition fle : f32 -> f32 -> bool := SFleb.
(** C's [a > b] on floats: false as soon as one side is a NaN. *)
Definition fgt (a b : f32) : bool := SFltb b a.

(** Conversion of an [int] to [float] (rounded; exact below 2^24). *)
Definition of_int (z : Z) : f32 := binary_normalize prec emax z 0 false.

(** The literal [n/d] written in decimal with an [f] suffix: the binary32
    number nearest to the rational [n/d].  Both [n] and [d] are exactly
    representable in every use below, so the correctly rounded quotient is
    that nearest number. *)
Definition literal (n d : Z) : f32 := fdiv (of_int n) (of_int d).

Definition is_finite (x : f32) : bool :=
  match x with
  | S754_zero _ | S754_finite _ _ _ => true
  | _ => false
  end.

(** Zero or a positive finite number. *)
Definition is_nonneg (x : f32) : bool :=
  match x with
  | S754_zero _ | S754_finite false _ _ => true
  | _ => false
  end.

(** The rational a finite float stands for (0 for infinities and NaN, which
    is only ever used under [is_finite]). *)
Definition F2Q (x : f32) : Q :=
  match x with
  | S754_finite s m e =>
      let n := if s then Z.neg m else Z.pos m in
      if 0 <=? e then Qmake (n * 2 ^ e) 1 else Qmake n (Z.to_pos (2 ^ (- e)))
  | _ => 0%Q
  end.

End Float32.

(** Strict comparison of rationals as a boolean. *)
Definition Qltb (x y : Q) : bool :=
  Qnum x * QDen y <? Qnum y * QDen x.

(** ** The memory-mapped registers and programs over them *)

Module Mmio.

(** The five registers the programs touch:
    [ADC_BASE + ADC_CH0_OFFSET], [ADC_BASE + ADC_CH1_OFFSET],
    [JP1_BASE + JP1_DATA_OFFSET], [JP1_BASE + JP1_DIR_OFFSET], [SW_BASE]. *)
Inductive reg : Type := ADC_CH0 | ADC_CH1 | JP1_DATA | JP1_DIR | SW.

Definition address (r : reg) : Z :=
  match r with
  | ADC_CH0 => 0xFF204000 + 0x00
  | ADC_CH1 => 0xFF204000 + 0x04
  | JP1_DATA => 0xFF200060 + 0x00
  | JP1_DIR => 0xFF200060 + 0x04
  | SW => 0xFF200040
  end.

Definition reg_eqb (a b : reg) : bool := address a =? address b.

(** What the outside world sees of a run. *)
Inductive event : Type :=
| EvLoad (r : reg) (w : Z)
| EvStore (r : reg) (w : Z)
| EvDelay.

(** A program is a tree of volatile accesses. *)
Inductive prog (A : Type) : Type :=
| Ret (a : A)
| Load (r : reg) (k : Z -> prog A)
| Store (r : reg) (w : Z) (k : prog A)
| Wait (k : prog A).

Arguments Ret {A} a.
Arguments Load {A} r k.
Arguments Store {A} r w k.
Arguments Wait {A} k.

Fixpoint bind {A B : Type} (p : prog A) (f : A -> prog B) : prog B :=
  match p with
  | Ret a => f a
  | Load r k => Load r (fun w => bind (k w) f)
  | Store r w k => Store r w (bind k f)
  | Wait k => Wait (bind k f)
  end.

(** A load through a [volatile uint32_t *]. *)
Definition load (r : reg) : prog Z := Load r (fun w => Ret w).
(** A load through a [volatile int *]. *)
Definition load_int (r : reg) : prog Z := Load r (fun w => Ret (Int32.to_s32 w)).
Definition store (r : reg) (w : Z) : prog unit := Store r (Int32.to_u32 w) (Ret tt).
Definition wait : prog unit := Wait (Ret tt).

(** The hardware: what a load of register [r] returns after the events of
    [hist] (most recent first).  Nothing is assumed of it. *)
Definition device : Type := list event -> reg -> Z.

(** The 32-bit word a load delivers. *)
Definition sample (dev : device) (hist : list event) (r : reg) : Z :=
  Int32.to_u32 (dev hist r).

(** Running a program: its result and the events it produced, in order. *)
Fixpoint run {A : Type} (dev : device) (hist : list event) (p : prog A)
  : A * list event :=
  match p with
  | Ret a => (a, [])
  | Load r k =>
      let w := sample dev hist r in
      let '(a, t) := run dev (EvLoad r w :: hist) (k w) in
      (a, EvLoad r w :: t)
  | Store r w k =>
      let '(a, t) := run dev (EvStore r w :: hist) k in
      (a, EvStore r w :: t)
  | Wait k =>
      let '(a, t) := run dev (EvDelay :: hist) k in
      (a, EvDelay :: t)
  end.

Definition trace {A : Type} (dev : device) (hist : list event) (p : prog A)
  : list event := snd (run dev hist p).

(** [n] passes through the body of a [while (1)] loop. *)
Fixpoint loop (n : nat) (body : prog unit) : prog unit :=
  match n with
  | O => Ret tt
  | S n' => bind body (fun _ => loop n' body)
  end.

(** The LED state a trace leaves behind: the last word stored to the JP1
    data register, or [prior] when there is none. *)
Fixpoint actuator (prior : Z) (t : list event) : Z :=
  match t with
  | [] => prior
  | EvStore JP1_DATA w :: t' => actuator w t'
  | _ :: t' => actuator prior t'
  end.

Definition is_load (e : event) : bool :=
  match e with EvLoad _ _ => true | _ => false end.

Definition is_load_of (r : reg) (e : event) : bool :=
  match e with EvLoad r' _ => reg_eqb r r' | _ => false end.

Definition is_store_to (r : reg) (e : event) : bool :=
  match e with EvStore r' _ => reg_eqb r r' | _ => false end.

(** The test both programs make on a raw ADC word, [raw & 0x10000] used as
    a condition: true when the masked word is not zero. *)
Definition conversion_done (raw : Z) : bool :=
  negb (Z.land raw 0x10000 =? 0).

End Mmio.

Declare Scope prog_scope.
Delimit Scope prog_scope with prog.
Notation "x <- p ;; q" := (Mmio.bind p (fun x => q))
  (at level 61, p at next level, right associativity) : prog_scope.
Notation "p ;; q" := (Mmio.bind p (fun _ => q))
  (at level 61, right associativity) : prog_scope.

(** ** stall_indicator.c *)

Module Stall.
Import Mmio Float32.
Local Open Scope prog_scope.

(** Aircraft and aerodynamics parameters ([#define]s of the source). *)
Definition WEIGHT : f32 := of_int 980000.       (* 980000.0f *)
Definition RHO : f32 := literal 1225 1000.      (* 1.225f *)
Definition WING_AREA : f32 := of_int 125.       (* 125.0f *)
Definition CL_MAX : f32 := literal 12 10.       (* 1.2f *)
Definition MAX_AOA : f32 := of_int 15.          (* 15.0f *)

(** The busy-wait loop touches no register: one delay event. *)
Definition delay : prog unit := wait.

(** [sqrtf((2.0f * WEIGHT) / (RHO * WING_AREA * CL_MAX))], computed once
    before the loop. *)
Definition velocity_stall : f32 :=
  fsqrt (fdiv (fmul (of_int 2) WEIGHT) (fmul (fmul RHO WING_AREA) CL_MAX)).

(** [adc_val / 4095.0f], the normalised amplitude both conversions share. *)
Definition toAmplitude (adc_val : Z) : f32 :=
  fdiv (of_int adc_val) (of_int 4095).

(** [(adc_val0 / 4095.0f) * 300.0f] *)
Definition current_velocity (adc_val0 : Z) : f32 :=
  fmul (fdiv (of_int adc_val0) (of_int 4095)) (of_int 300).

(** [((adc_val1 / 4095.0f) - 0.5f) * 60.0f] *)
Definition current_AoA (adc_val1 : Z) : f32 :=
  fmul (fsub (fdiv (of_int adc_val1) (of_int 4095)) (literal 5 10)) (of_int 60).

(** [(current_velocity < velocity_stall) || (current_AoA > MAX_AOA)] *)
Definition stalling (v_stall v aoa : f32) : bool :=
  flt v v_stall || fgt aoa MAX_AOA.

(** The word the [if (stalling)] statement stores. *)
Definition led_word (alarm : bool) : Z :=
  if alarm then 0x3FF else 0x000.

(** One pass through the body of [while (1)]. *)
Definition iteration (v_stall : f32) : prog unit :=
  raw_ch0 <- load_int ADC_CH0 ;;
  raw_ch1 <- load_int ADC_CH1 ;;
  (if conversion_done raw_ch0 && conversion_done raw_ch1 then
     let adc_val0 := Z.land raw_ch0 0xFFF in
     let adc_val1 := Z.land raw_ch1 0xFFF in
     if stalling v_stall (current_velocity adc_val0) (current_AoA adc_val1)
     then store JP1_DATA 0x3FF
     else store JP1_DATA 0x000
   else Ret tt) ;;
  delay.

(** GPIO direction and ADC start-up, before the loop. *)
Definition init : prog unit :=
  store JP1_DIR 0x3FF ;;
  store ADC_CH0 1 ;;
  store ADC_CH1 1.

(** [main], cut after [n] passes of its endless loop. *)
Definition main (n : nat) : prog unit :=
  init ;;
  let v_stall := velocity_stall in
  loop n (iteration v_stall).

End Stall.

(** ** The LED bar graph (switch-selected channel) *)

Module Bargraph.
Import Mmio.
Local Open Scope prog_scope.

Definition delay : prog unit := wait.

(** [(adc_value * 10) / 4095] in [uint32_t] arithmetic. *)
Definition scaled (adc_value : Z) : Z :=
  Int32.to_u32 (adc_value * 10) / 4095.

(** [led_count] after [if (led_count > 10) led_count = 10;]. *)
Definition led_count (adc_value : Z) : Z :=
  let led_count := scaled adc_value in
  if led_count >? 10 then 10 else led_count.

(** [(led_count > 0) ? ((1 << led_count) - 1) : 0], stored in a
    [uint32_t]. *)
Definition led_mask (led_count : Z) : Z :=
  if led_count >? 0 then Int32.to_u32 (Z.shiftl 1 led_count - 1) else 0.

(** The channel SW0 selects. *)
Definition selected (sw_word : Z) : reg :=
  if Z.land sw_word 0x1 =? 0 then ADC_CH0 else ADC_CH1.

(** One pass through the body of [while (1)]. *)
Definition iteration : prog unit :=
  sw_word <- load SW ;;
  let sw0 := Z.land sw_word 0x1 in
  adc_read <- (if sw0 =? 0 then load ADC_CH0 else load ADC_CH1) ;;
  (if conversion_done adc_read then
     let adc_value := Z.land adc_read 0xFFF in
     let led_count := led_count adc_value in
     let led_mask := led_mask led_count in
     store JP1_DATA led_mask
   else Ret tt) ;;
  delay.

Definition init : prog unit :=
  store JP1_DIR 0x3FF ;;
  store ADC_CH0 1 ;;
  store ADC_CH1 1.

Definition main (n : nat) : prog unit :=
  init ;;
  loop n iteration.

(** The amplitude of a sample as an exact fraction of full scale. *)
Definition amplitude (adc_value : Z) : Q := Qmake adc_value 4095.

End Bargraph.

(** A device with one word per register. *)
Definition static_device (ch0 ch1 sw : Z) : Mmio.device :=
  fun _ r =>
    match r with
    | Mmio.ADC_CH0 => ch0
    | Mmio.ADC_CH1 => ch1
    | Mmio.SW => sw
    | _ => 0
    end.

Import Mmio Float32.

(** ** Checks and predicates used in the statements *)

(** The 4096 codes a 12-bit sample can take. *)
Definition raw_codes : list Z := map Z.of_nat (seq 0 4096).

(** Everything checked of the conversions of one code. *)
Definition reading_ok (z : Z) : bool :=
  let a := Stall.toAmplitude z in
  let v := Stall.current_velocity z in
  let aoa := Stall.current_AoA z in
  is_nonneg a && fle (of_int 0) a && fle a (of_int 1)
  && ((z =? 4095) || fle a (Stall.toAmplitude (z + 1)))
  && Qle_bool (Qabs (F2Q a - (z # 4095))) (1 # 33554432)
  && is_finite v && fle (of_int 0) v && fle v (of_int 300)
  && Qle_bool (Qabs (F2Q v - (z # 4095) * 300)) (1 # 50000)
  && is_finite aoa && fle (of_int (-30)) aoa && fle aoa (of_int 30)
  && Qle_bool (Qabs (F2Q aoa - ((z # 4095) - (1 # 2)) * 60)) (1 # 500000).

(** The two float comparisons of the stall test agree with the order of the
    rationals the floats stand for. *)
Definition alarm_ok (z : Z) : bool :=
  Bool.eqb (flt (Stall.current_velocity z) Stall.velocity_stall)
           (Qltb (F2Q (Stall.current_velocity z)) (F2Q Stall.velocity_stall))
  && Bool.eqb (fgt (Stall.current_AoA z) Stall.MAX_AOA)
              (Qltb 15 (F2Q (Stall.current_AoA z))).

(** The count the quantizer would get from the single-precision amplitude,
    [floor((adc_value / 4095.0f) * 10.0f)]. *)
Definition float_count (adc_value : Z) : Z :=
  Qfloor (F2Q (fmul (Stall.toAmplitude adc_value) (of_int 10))).

Definition float_count_ok (z : Z) : bool :=
  float_count z =? Bargraph.led_count z.

(** An event the LED port tolerates: a store to the data register carries a
    word with nothing above bit 9, and the data register is never loaded. *)
Definition led_port_ok (e : event) : bool :=
  match e with
  | EvStore JP1_DATA w => (0 <=? w) && (w <=? 0x3FF) && (Z.shiftr w 10 =? 0)
  | EvLoad JP1_DATA _ => false
  | _ => true
  end.

(** ** The delay function and predicates on whole runs *)

(** [for (volatile int i = 0; i < 100000; i++) { ; }]: the value of [i] when
    the loop ends, or [None] when [fuel] passes were not enough. *)
Fixpoint delay_count (fuel : nat) (i : Z) : option Z :=
  if i <? 100000 then
    match fuel with
    | O => None
    | S fuel' => delay_count fuel' (Int32.to_s32 (i + 1))
    end
  else Some i.

Definition is_delay (e : event) : bool :=
  match e with EvDelay => true | _ => false end.

(** How many events of a trace satisfy [P]. *)
Definition count (P : event -> bool) (t : list event) : nat :=
  length (filter P t).

(** A store to anything but the LED data register. *)
Definition is_config_store (e : event) : bool :=
  match e with
  | EvStore JP1_DATA _ => false
  | EvStore _ _ => true
  | _ => false
  end.

Definition no_config_store (e : event) : bool := negb (is_config_store e).

Definition no_data_store (e : event) : bool := negb (is_store_to JP1_DATA e).

(** The three stores both programs start with. *)
Definition init_events : list event :=
  [EvStore JP1_DIR 0x3FF; EvStore ADC_CH0 1; EvStore ADC_CH1 1].

(** The stall indicator's LED words: all off or all on. *)
Definition stall_store_ok (e : event) : bool :=
  match e with
  | EvStore JP1_DATA w => (w =? 0x000) || (w =? 0x3FF)
  | _ => true
  end.

(** The eleven bars: 0, 1, 3, 7, ..., 0x3FF. *)
Definition bar_words : list Z := map Z.ones (map Z.of_nat (seq 0 11)).

Definition bar_store_ok (e : event) : bool :=
  match e with
  | EvStore JP1_DATA w => existsb (Z.eqb w) bar_words
  | _ => true
  end.

(** The stall test of one code on each channel against fixed code
    thresholds. *)
Definition threshold_ok (z : Z) : bool :=
  Bool.eqb (flt (Stall.current_velocity z) Stall.velocity_stall) (z <=? 1409)
  && Bool.eqb (fgt (Stall.current_AoA z) Stall.MAX_AOA) (3072 <=? z).

(** The values of the readings of two consecutive codes, in order. *)
Definition reading_step_ok (z : Z) : bool :=
  (z =? 4095)
  || (Qle_bool (F2Q (Stall.current_velocity z)) (F2Q (Stall.current_velocity (z + 1)))
      && Qle_bool (F2Q (Stall.current_AoA z)) (F2Q (Stall.current_AoA (z + 1)))).

(** Everything a pass does but its loads. *)
Definition is_output (e : event) : bool := negb (is_load e).

(** * Properties *)

(** ** Arithmetic helpers *)

Lemma forallb_range (P : Z -> bool) (n : nat) :
  forallb P (map Z.of_nat (seq 0 n)) = true ->
  forall z, 0 <= z < Z.of_nat n -> P z = true.
Proof.
  intros H z Hz.
  rewrite forallb_forall in H.
  apply H. apply in_map_iff.
  exists (Z.to_nat z). split; [lia|].
  apply in_seq. lia.
Qed.

Lemma land_0xFFF_range (x : Z) : 0 <= Z.land x 0xFFF <= 4095.
Proof.
  change (Z.land x 0xFFF) with (Z.land x (Z.ones 12)).
  rewrite Z.land_ones by lia.
  change (2 ^ 12) with 4096.
  pose proof (Z.mod_pos_bound x 4096 eq_refl). lia.
Qed.

Lemma to_u32_small (z : Z) : 0 <= z < 2 ^ 32 -> Int32.to_u32 z = z.
Proof.
  intros H. unfold Int32.to_u32, Int32.modulus. apply Z.mod_small. exact H.
Qed.

Lemma scaled_eq (adc_value : Z) :
  0 <= adc_value <= 4095 -> Bargraph.scaled adc_value = adc_value * 10 / 4095.
Proof.
  intros H. unfold Bargraph.scaled. rewrite to_u32_small; [reflexivity|lia].
Qed.

Lemma scaled_range (adc_value : Z) :
  0 <= adc_value <= 4095 -> 0 <= Bargraph.scaled adc_value <= 10.
Proof.
  intros H. rewrite scaled_eq by exact H. split.
  - apply Z.div_pos; lia.
  - apply Z.div_le_upper_bound; lia.
Qed.

Lemma led_count_eq (adc_value : Z) :
  0 <= adc_value <= 4095 -> Bargraph.led_count adc_value = adc_value * 10 / 4095.
Proof.
  intros H. unfold Bargraph.led_count.
  pose proof (scaled_range adc_value H) as R.
  destruct (Bargraph.scaled adc_value >? 10) eqn:E; [lia|].
  apply scaled_eq, H.
Qed.

Lemma led_mask_ones (c : Z) : 0 <= c <= 10 -> Bargraph.led_mask c = Z.ones c.
Proof.
  intros H.
  assert (E : c = 0 \/ c = 1 \/ c = 2 \/ c = 3 \/ c = 4 \/ c = 5 \/ c = 6
              \/ c = 7 \/ c = 8 \/ c = 9 \/ c = 10) by lia.
  repeat (destruct E as [E | E]; [subst c; reflexivity|]).
  subst c; reflexivity.
Qed.

Lemma popcount_ones (c : Z) :
  0 <= c <= 10 -> Int32.popcount (Z.ones c) = Z.to_nat c.
Proof.
  intros H.
  assert (E : c = 0 \/ c = 1 \/ c = 2 \/ c = 3 \/ c = 4 \/ c = 5 \/ c = 6
              \/ c = 7 \/ c = 8 \/ c = 9 \/ c = 10) by lia.
  repeat (destruct E as [E | E]; [subst c; reflexivity|]).
  subst c; reflexivity.
Qed.

Lemma led_count_range (adc_value : Z) :
  0 <= adc_value <= 4095 -> 0 <= Bargraph.led_count adc_value <= 10.
Proof.
  intros H. rewrite led_count_eq by exact H. rewrite <- scaled_eq by exact H.
  apply scaled_range, H.
Qed.

Lemma led_mask_u32 (adc_value : Z) :
  0 <= adc_value <= 4095 ->
  Int32.to_u32 (Bargraph.led_mask (Bargraph.led_count adc_value))
  = Bargraph.led_mask (Bargraph.led_count adc_value).
Proof.
  intros H.
  pose proof (led_count_range adc_value H) as R.
  rewrite led_mask_ones by exact R.
  apply to_u32_small.
  rewrite Z.ones_equiv.
  assert (2 ^ Bargraph.led_count adc_value <= 2 ^ 10) by (apply Z.pow_le_mono_r; lia).
  assert (0 < 2 ^ Bargraph.led_count adc_value) by (apply Z.pow_pos_nonneg; lia).
  change (2 ^ 10) with 1024 in *. change (2 ^ 32) with 4294967296. lia.
Qed.

Lemma amplitude_floor (adc_value : Z) :
  Qfloor (Bargraph.amplitude adc_value * 10) = adc_value * 10 / 4095.
Proof.
  unfold Bargraph.amplitude, Qfloor, Qmult. simpl.
  reflexivity.
Qed.

Lemma amplitude_le (a1 a2 : Z) :
  (Bargraph.amplitude a1 <= Bargraph.amplitude a2)%Q <-> a1 <= a2.
Proof.
  unfold Bargraph.amplitude, Qle. simpl. lia.
Qed.

Lemma float_counts_checked : forallb float_count_ok raw_codes = true.
Proof. vm_compute. reflexivity. Qed.

Lemma float_count_eq (adc_value : Z) :
  0 <= adc_value <= 4095 -> float_count adc_value = Bargraph.led_count adc_value.
Proof.
  intros H. apply Z.eqb_eq.
  apply (forallb_range float_count_ok 4096 float_counts_checked). lia.
Qed.

(** ** The bar-graph quantizer *)

(** C10: the raw word is masked with [0xFFF] before it is scaled, so
    [(adc_value * 10) / 4095] is at most 10 whatever word the ADC delivers;
    the test [led_count > 10] is never true and the clamp never changes
    the count. *)
Theorem clamp_unreachable (adc_read : Z) :
  let adc_value := Z.land adc_read 0xFFF in
  0 <= adc_value <= 4095
  /\ Bargraph.scaled adc_value <= 10
  /\ (Bargraph.scaled adc_value >? 10) = false
  /\ Bargraph.led_count adc_value = Bargraph.scaled adc_value.
Proof.
  intros adc_value.
  pose proof (land_0xFFF_range adc_read) as R. fold adc_value in R.
  pose proof (scaled_range adc_value R) as S.
  assert (G : (Bargraph.scaled adc_value >? 10) = false) by lia.
  repeat split; try lia; try exact G.
  unfold Bargraph.led_count. rewrite G. reflexivity.
Qed.

(** C4: for a 12-bit sample the count is the floor of ten times the
    amplitude, clamped to [0, 10] (with the amplitude taken as the exact
    fraction of full scale, and just as well as the single-precision
    quotient); the mask is [(1 << count) - 1] (which is 0
    for count 0), has exactly the bits below [count] set, that is [count]
    bits, and neither the product nor the shift overflows 32 bits; the full
    scale sample 4095 gives count 10 and mask 0x3FF. *)
Theorem quantizer_count_and_mask (adc_value : Z) :
  0 <= adc_value <= 4095 ->
  let count := Bargraph.led_count adc_value in
  let mask := Bargraph.led_mask count in
  count = Z.max 0 (Z.min 10 (Qfloor (Bargraph.amplitude adc_value * 10)))
  /\ count = Z.max 0 (Z.min 10 (float_count adc_value))
  /\ 0 <= count <= 10
  /\ Int32.to_u32 (adc_value * 10) = adc_value * 10
  /\ mask = (if count >? 0 then Z.shiftl 1 count - 1 else 0)
  /\ mask = Z.shiftl 1 count - 1
  /\ (forall i, 0 <= i -> Z.testbit mask i = (i <? count))
  /\ Int32.popcount mask = Z.to_nat count
  /\ (adc_value = 4095 -> count = 10 /\ mask = 0x3FF).
Proof.
  intros H count mask.
  assert (C : count = adc_value * 10 / 4095) by (apply led_count_eq, H).
  assert (R : 0 <= count <= 10) by (apply led_count_range, H).
  assert (M : mask = Z.ones count) by (apply led_mask_ones, R).
  assert (O : Z.ones count = Z.shiftl 1 count - 1).
  { rewrite Z.ones_equiv, Z.shiftl_1_l. lia. }
  split; [|split; [|split; [|split; [|split; [|split; [|split; [|split]]]]]]].
  - rewrite amplitude_floor. lia.
  - rewrite float_count_eq by exact H. fold count. lia.
  - exact R.
  - apply to_u32_small. lia.
  - rewrite M, O. destruct (count >? 0) eqn:E; [reflexivity|].
    assert (Z : count = 0) by lia. rewrite Z. reflexivity.
  - rewrite M. exact O.
  - intros i Hi. rewrite M. apply Z.testbit_ones_nonneg; lia.
  - rewrite M. apply popcount_ones, R.
  - intros ->. split; reflexivity.
Qed.

Lemma quantizer_count_and_mask_witness :
  let count := Bargraph.led_count 4095 in
  let mask := Bargraph.led_mask count in
  count = Z.max 0 (Z.min 10 (Qfloor (Bargraph.amplitude 4095 * 10)))
  /\ count = Z.max 0 (Z.min 10 (float_count 4095))
  /\ 0 <= count <= 10
  /\ Int32.to_u32 (4095 * 10) = 4095 * 10
  /\ mask = (if count >? 0 then Z.shiftl 1 count - 1 else 0)
  /\ mask = Z.shiftl 1 count - 1
  /\ (forall i, 0 <= i -> Z.testbit mask i = (i <? count))
  /\ Int32.popcount mask = Z.to_nat count
  /\ (4095 = 4095 -> count = 10 /\ mask = 0x3FF).
Proof. apply (quantizer_count_and_mask 4095). lia. Defined.

(** C5: the count never decreases when the amplitude grows. *)
Theorem led_count_monotone (adc1 adc2 : Z) :
  0 <= adc1 <= 4095 -> 0 <= adc2 <= 4095 ->
  (Bargraph.amplitude adc1 <= Bargraph.amplitude adc2)%Q ->
  Bargraph.led_count adc1 <= Bargraph.led_count adc2.
Proof.
  intros H1 H2 Hle. apply (proj1 (amplitude_le adc1 adc2)) in Hle.
  rewrite !led_count_eq by assumption.
  apply Z.div_le_mono; lia.
Qed.

Lemma led_count_monotone_witness :
  Bargraph.led_count 2047 <= Bargraph.led_count 2048.
Proof.
  apply (led_count_monotone 2047 2048); [lia | lia |].
  apply (proj2 (amplitude_le 2047 2048)). lia.
Defined.

(** ** Bits of the sampled words *)

Lemma conversion_done_bit16 (raw : Z) :
  conversion_done raw = Z.testbit raw 16.
Proof.
  unfold conversion_done. change 0x10000 with (2 ^ 16).
  destruct (Z.testbit raw 16) eqn:E.
  - destruct (Z.eqb_spec (Z.land raw (2 ^ 16)) 0) as [H | H]; [|reflexivity].
    assert (T : Z.testbit (Z.land raw (2 ^ 16)) 16 = true).
    { rewrite Z.land_spec, E, Z.pow2_bits_true by lia. reflexivity. }
    rewrite H, Z.bits_0 in T. discriminate.
  - assert (H : Z.land raw (2 ^ 16) = 0).
    { apply Z.bits_inj'. intros n Hn.
      rewrite Z.land_spec, Z.bits_0, Z.pow2_bits_eqb by lia.
      destruct (Z.eqb_spec 16 n) as [<- | _].
      - rewrite E. reflexivity.
      - apply andb_false_r. }
    rewrite H. reflexivity.
Qed.

Lemma to_s32_testbit (z i : Z) :
  0 <= i < 32 -> Z.testbit (Int32.to_s32 z) i = Z.testbit z i.
Proof.
  intros Hi.
  assert (L : forall a, Z.testbit (a mod 2 ^ 32) i = Z.testbit a i).
  { intros a. apply Z.mod_pow2_bits_low. lia. }
  unfold Int32.to_s32, Int32.to_u32, Int32.modulus.
  destruct (z mod 2 ^ 32 <? 2 ^ 31).
  - apply L.
  - assert (E : (z mod 2 ^ 32 - 2 ^ 32) mod 2 ^ 32 = z mod 2 ^ 32).
    { change (2 ^ 32) with 4294967296.
      replace (z mod 4294967296 - 4294967296)
        with (z mod 4294967296 + (-1) * 4294967296) by lia.
      rewrite Z.mod_add by lia. apply Z.mod_mod. lia. }
    rewrite <- (L (z mod 2 ^ 32 - 2 ^ 32)), E. apply L.
Qed.

Lemma to_s32_done (w : Z) :
  conversion_done (Int32.to_s32 w) = Z.testbit w 16.
Proof. rewrite conversion_done_bit16. apply to_s32_testbit. lia. Qed.

Lemma to_s32_low12 (w : Z) :
  Z.land (Int32.to_s32 w) 0xFFF = Z.land w 0xFFF.
Proof.
  apply Z.bits_inj'. intros n Hn.
  rewrite !Z.land_spec.
  destruct (Z.ltb_spec n 32) as [Lt | Ge].
  - rewrite to_s32_testbit by lia. reflexivity.
  - change 0xFFF with (Z.ones 12).
    rewrite Z.ones_spec_high by lia.
    rewrite !andb_false_r. reflexivity.
Qed.

Lemma selected_bit0 (sw_word : Z) :
  Bargraph.selected sw_word = if Z.testbit sw_word 0 then ADC_CH1 else ADC_CH0.
Proof.
  unfold Bargraph.selected.
  change (Z.land sw_word 1) with (Z.land sw_word (Z.ones 1)).
  rewrite Z.land_ones by lia. change (2 ^ 1) with 2.
  rewrite <- Z.bit0_mod.
  destruct (Z.testbit sw_word 0); reflexivity.
Qed.

(** ** Traces *)

Lemma run_bind {A B : Type} (dev : device) (p : prog A) (f : A -> prog B) :
  forall hist,
    run dev hist (bind p f) =
    (fst (run dev (rev (snd (run dev hist p)) ++ hist) (f (fst (run dev hist p)))),
     snd (run dev hist p)
       ++ snd (run dev (rev (snd (run dev hist p)) ++ hist)
                 (f (fst (run dev hist p))))).
Proof.
  induction p as [a | r k IH | r w k IH | k IH]; intros hist; simpl.
  - destruct (run dev hist (f a)); reflexivity.
  - rewrite IH. destruct (run dev (EvLoad r (sample dev hist r) :: hist)
                            (k (sample dev hist r))) as [a t]; simpl.
    rewrite <- app_assoc. reflexivity.
  - rewrite IH. destruct (run dev (EvStore r w :: hist) k) as [a t]; simpl.
    rewrite <- app_assoc. reflexivity.
  - rewrite IH. destruct (run dev (EvDelay :: hist) k) as [a t]; simpl.
    rewrite <- app_assoc. reflexivity.
Qed.

Lemma trace_bind {A B : Type} (dev : device) (hist : list event)
      (p : prog A) (f : A -> prog B) :
  trace dev hist (bind p f) =
  trace dev hist p
    ++ trace dev (rev (trace dev hist p) ++ hist) (f (fst (run dev hist p))).
Proof. unfold trace. rewrite run_bind. reflexivity. Qed.

Lemma trace_loop_forallb (P : event -> bool) (dev : device) (body : prog unit) :
  (forall hist, forallb P (trace dev hist body) = true) ->
  forall n hist, forallb P (trace dev hist (loop n body)) = true.
Proof.
  intros Hbody n. induction n as [| n IH]; intros hist; simpl.
  - reflexivity.
  - rewrite trace_bind, forallb_app, Hbody, IH. reflexivity.
Qed.

Lemma actuator_overwritten (t : list event) :
  existsb (is_store_to JP1_DATA) t = true ->
  forall p1 p2, actuator p1 t = actuator p2 t.
Proof.
  induction t as [| e t IH]; simpl; intros H p1 p2.
  - discriminate.
  - destruct e as [r w | r w |]; simpl in H.
    + apply IH, H.
    + destruct r; simpl in H; try (apply IH, H); reflexivity.
    + apply IH, H.
Qed.

(** The traces of one pass, spelled out. *)

Lemma stall_iteration_trace (dev : device) (hist : list event) (v_stall : f32) :
  let w0 := sample dev hist ADC_CH0 in
  let w1 := sample dev (EvLoad ADC_CH0 w0 :: hist) ADC_CH1 in
  trace dev hist (Stall.iteration v_stall) =
  EvLoad ADC_CH0 w0 :: EvLoad ADC_CH1 w1 ::
    (if Z.testbit w0 16 && Z.testbit w1 16
     then [EvStore JP1_DATA
             (Stall.led_word
                (Stall.stalling v_stall
                   (Stall.current_velocity (Z.land w0 0xFFF))
                   (Stall.current_AoA (Z.land w1 0xFFF))));
           EvDelay]
     else [EvDelay]).
Proof.
  intros w0 w1. unfold trace, Stall.iteration, Stall.delay, load_int, wait.
  cbn [bind run]. fold w0. fold w1.
  rewrite !to_s32_done, !to_s32_low12.
  destruct (Z.testbit w0 16 && Z.testbit w1 16); [|reflexivity].
  destruct (Stall.stalling _ _ _); reflexivity.
Qed.

Lemma bargraph_iteration_trace (dev : device) (hist : list event) :
  let sw_word := sample dev hist SW in
  let adc_read := sample dev (EvLoad SW sw_word :: hist) (Bargraph.selected sw_word) in
  trace dev hist Bargraph.iteration =
  EvLoad SW sw_word :: EvLoad (Bargraph.selected sw_word) adc_read ::
    (if Z.testbit adc_read 16
     then [EvStore JP1_DATA
             (Bargraph.led_mask (Bargraph.led_count (Z.land adc_read 0xFFF)));
           EvDelay]
     else [EvDelay]).
Proof.
  intros sw_word adc_read.
  unfold trace, Bargraph.iteration, Bargraph.delay, load, wait.
  cbn [bind run]. fold sw_word. unfold adc_read, Bargraph.selected.
  destruct (Z.land sw_word 1 =? 0); cbn [bind run];
    rewrite conversion_done_bit16;
    match goal with |- context [Z.testbit ?w 16] => destruct (Z.testbit w 16) end;
    try reflexivity.
  all: unfold store; cbn [bind run snd].
  all: rewrite led_mask_u32 by apply land_0xFFF_range; reflexivity.
Qed.

(** ** The control loop *)

Lemma stall_iteration_ok (dev : device) (v_stall : f32) (hist : list event) :
  forallb led_port_ok (trace dev hist (Stall.iteration v_stall)) = true.
Proof.
  rewrite stall_iteration_trace.
  destruct (Z.testbit _ 16 && Z.testbit _ 16); [|reflexivity].
  destruct (Stall.stalling _ _ _); reflexivity.
Qed.

Lemma bargraph_iteration_ok (dev : device) (hist : list event) :
  forallb led_port_ok (trace dev hist Bargraph.iteration) = true.
Proof.
  rewrite bargraph_iteration_trace.
  assert (S : forall r w, led_port_ok (EvLoad (Bargraph.selected r) w) = true).
  { intros r w. unfold Bargraph.selected. destruct (Z.land r 1 =? 0); reflexivity. }
  cbn [forallb]. rewrite S.
  destruct (Z.testbit _ 16); [|reflexivity].
  match goal with |- context [Z.land ?w 4095] =>
    pose proof (led_count_range (Z.land w 4095) (land_0xFFF_range w)) as C
  end.
  rewrite led_mask_ones by exact C.
  cbn [forallb led_port_ok].
  match goal with |- context [Z.ones ?c] => set (k := c) in * end.
  assert (E : k = 0 \/ k = 1 \/ k = 2 \/ k = 3 \/ k = 4 \/ k = 5 \/ k = 6
              \/ k = 7 \/ k = 8 \/ k = 9 \/ k = 10) by lia.
  repeat (destruct E as [E | E]; [rewrite E; reflexivity|]).
  rewrite E; reflexivity.
Qed.

(** C3: when a completion bit the pass needs is clear (either channel for
    the stall indicator, the selected channel for the bar graph) the pass
    only loads and waits: it stores nothing, and the LED state is what it
    was. *)
Theorem incomplete_sample_keeps_actuator
        (dev : device) (hist : list event) (v_stall : f32) (prior : Z) :
  (let w0 := sample dev hist ADC_CH0 in
   let w1 := sample dev (EvLoad ADC_CH0 w0 :: hist) ADC_CH1 in
   Z.testbit w0 16 = false \/ Z.testbit w1 16 = false ->
   trace dev hist (Stall.iteration v_stall)
     = [EvLoad ADC_CH0 w0; EvLoad ADC_CH1 w1; EvDelay]
   /\ existsb (is_store_to JP1_DATA) (trace dev hist (Stall.iteration v_stall)) = false
   /\ actuator prior (trace dev hist (Stall.iteration v_stall)) = prior)
  /\
  (let sw_word := sample dev hist SW in
   let ch := Bargraph.selected sw_word in
   let adc_read := sample dev (EvLoad SW sw_word :: hist) ch in
   Z.testbit adc_read 16 = false ->
   trace dev hist Bargraph.iteration
     = [EvLoad SW sw_word; EvLoad ch adc_read; EvDelay]
   /\ existsb (is_store_to JP1_DATA) (trace dev hist Bargraph.iteration) = false
   /\ actuator prior (trace dev hist Bargraph.iteration) = prior).
Proof.
  split.
  - intros w0 w1 H.
    assert (T : trace dev hist (Stall.iteration v_stall)
                = [EvLoad ADC_CH0 w0; EvLoad ADC_CH1 w1; EvDelay]).
    { rewrite stall_iteration_trace. fold w0. fold w1.
      destruct H as [H | H]; rewrite H; [|rewrite andb_false_r]; reflexivity. }
    rewrite T. repeat split; reflexivity.
  - intros sw_word ch adc_read H.
    assert (T : trace dev hist Bargraph.iteration
                = [EvLoad SW sw_word; EvLoad ch adc_read; EvDelay]).
    { rewrite bargraph_iteration_trace. fold sw_word. fold ch. fold adc_read.
      rewrite H. reflexivity. }
    rewrite T. unfold ch, Bargraph.selected.
    destruct (Z.land sw_word 1 =? 0); repeat split; reflexivity.
Qed.

Lemma incomplete_sample_keeps_actuator_witness :
  (trace (static_device 0x00800 0x10800 0) [] (Stall.iteration Stall.velocity_stall)
     = [EvLoad ADC_CH0 0x00800; EvLoad ADC_CH1 0x10800; EvDelay]
   /\ existsb (is_store_to JP1_DATA)
        (trace (static_device 0x00800 0x10800 0) []
           (Stall.iteration Stall.velocity_stall)) = false
   /\ actuator 0x3FF
        (trace (static_device 0x00800 0x10800 0) []
           (Stall.iteration Stall.velocity_stall)) = 0x3FF)
  /\
  (trace (static_device 0x10800 0x08FFF 1) [] Bargraph.iteration
     = [EvLoad SW 1; EvLoad ADC_CH1 0x08FFF; EvDelay]
   /\ existsb (is_store_to JP1_DATA)
        (trace (static_device 0x10800 0x08FFF 1) [] Bargraph.iteration) = false
   /\ actuator 0x1F
        (trace (static_device 0x10800 0x08FFF 1) [] Bargraph.iteration) = 0x1F).
Proof.
  split.
  - apply (proj1 (incomplete_sample_keeps_actuator
                    (static_device 0x00800 0x10800 0) [] Stall.velocity_stall 0x3FF)).
    left. reflexivity.
  - apply (proj2 (incomplete_sample_keeps_actuator
                    (static_device 0x10800 0x08FFF 1) [] Stall.velocity_stall 0x1F)).
    reflexivity.
Defined.

(** C7: a pass of the bar graph loads the switch register once, first, then
    the one ADC channel bit 0 of the switch word selects (clear: channel 0,
    set: channel 1), and loads nothing else; a pass of the stall indicator
    loads channel 0 then channel 1, whatever the device holds, and never the
    switches. *)
Theorem channels_polled (dev : device) (hist : list event) (v_stall : f32) :
  (exists rest,
      let sw_word := sample dev hist SW in
      let ch := if Z.testbit sw_word 0 then ADC_CH1 else ADC_CH0 in
      let other := if Z.testbit sw_word 0 then ADC_CH0 else ADC_CH1 in
      trace dev hist Bargraph.iteration
        = EvLoad SW sw_word
            :: EvLoad ch (sample dev (EvLoad SW sw_word :: hist) ch) :: rest
      /\ existsb is_load rest = false
      /\ length (filter (is_load_of SW) (trace dev hist Bargraph.iteration)) = 1%nat
      /\ existsb (is_load_of other) (trace dev hist Bargraph.iteration) = false)
  /\
  (exists rest,
      let w0 := sample dev hist ADC_CH0 in
      let w1 := sample dev (EvLoad ADC_CH0 w0 :: hist) ADC_CH1 in
      trace dev hist (Stall.iteration v_stall)
        = EvLoad ADC_CH0 w0 :: EvLoad ADC_CH1 w1 :: rest
      /\ existsb is_load rest = false
      /\ existsb (is_load_of SW) (trace dev hist (Stall.iteration v_stall)) = false).
Proof.
  split.
  - rewrite bargraph_iteration_trace, selected_bit0.
    eexists. cbv zeta. split; [reflexivity|].
    destruct (Z.testbit (sample dev hist SW) 0);
      destruct (Z.testbit _ 16); repeat split; reflexivity.
  - rewrite stall_iteration_trace.
    eexists. cbv zeta. split; [reflexivity|].
    destruct (Z.testbit _ 16 && Z.testbit _ 16); split; reflexivity.
Qed.

Lemma main_trace_ok (dev : device) (body : prog unit) (pre : prog unit) :
  (forall hist, forallb led_port_ok (trace dev hist pre) = true) ->
  (forall hist, forallb led_port_ok (trace dev hist body) = true) ->
  forall n hist,
    forallb led_port_ok (trace dev hist (bind pre (fun _ => loop n body))) = true.
Proof.
  intros Hpre Hbody n hist.
  rewrite trace_bind, forallb_app, Hpre.
  apply trace_loop_forallb, Hbody.
Qed.

(** C9: in every run of either program, through any number of passes and
    against any device, each word stored to the LED data register is at most
    0x3FF (nothing above bit 9), the data register is never loaded (so no
    store is a read-modify-write), and a store leaves an LED state that does
    not depend on the one before. *)
Theorem actuator_writes_bounded (dev : device) (hist : list event) (n : nat) :
  forallb led_port_ok (trace dev hist (Stall.main n)) = true
  /\ forallb led_port_ok (trace dev hist (Bargraph.main n)) = true
  /\ (forall (t : list event) (w p1 p2 : Z),
         actuator p1 (EvStore JP1_DATA w :: t) = actuator p2 (EvStore JP1_DATA w :: t)).
Proof.
  split; [|split].
  - unfold Stall.main. cbv zeta. apply main_trace_ok.
    + intros h. reflexivity.
    + intros h. apply stall_iteration_ok.
  - unfold Bargraph.main. apply main_trace_ok.
    + intros h. reflexivity.
    + intros h. apply bargraph_iteration_ok.
  - intros t w p1 p2. apply actuator_overwritten. reflexivity.
Qed.

(** C8 as the code has it: the completion test is the literal mask 0x10000
    in both programs, that is bit 16 of the polled word and no other; a pass
    stores to the LED port exactly when that bit is set in every word it
    polled. *)
Theorem completion_bit_is_fixed (dev : device) (hist : list event) (v_stall : f32) :
  (forall raw, conversion_done raw = Z.testbit raw 16)
  /\ (let w0 := sample dev hist ADC_CH0 in
      let w1 := sample dev (EvLoad ADC_CH0 w0 :: hist) ADC_CH1 in
      existsb (is_store_to JP1_DATA) (trace dev hist (Stall.iteration v_stall))
      = Z.testbit w0 16 && Z.testbit w1 16)
  /\ (let sw_word := sample dev hist SW in
      let adc_read := sample dev (EvLoad SW sw_word :: hist) (Bargraph.selected sw_word) in
      existsb (is_store_to JP1_DATA) (trace dev hist Bargraph.iteration)
      = Z.testbit adc_read 16).
Proof.
  split; [exact conversion_done_bit16 | split].
  - cbv zeta. rewrite stall_iteration_trace.
    destruct (Z.testbit _ 16 && Z.testbit _ 16); reflexivity.
  - cbv zeta. rewrite bargraph_iteration_trace.
    unfold Bargraph.selected.
    destruct (Z.land _ 1 =? 0); destruct (Z.testbit _ 16); reflexivity.
Qed.

(** C8, the claim as stated fails: the word 0x8FFF has bit 15 set (the
    position real hardware uses) yet the test reports the conversion as not
    done and the pass stores nothing; the test does not follow a configured
    bit position. *)
Lemma completion_bit_not_configurable :
  Z.testbit 0x8FFF 15 = true
  /\ conversion_done 0x8FFF = false
  /\ trace (static_device 0 0x8FFF 1) [] Bargraph.iteration
     = [EvLoad SW 1; EvLoad ADC_CH1 0x8FFF; EvDelay]
  /\ ~ (forall bit raw : Z, 0 <= bit < 32 -> conversion_done raw = Z.testbit raw bit).
Proof.
  repeat split.
  intros H. specialize (H 15 0x8FFF ltac:(lia)). discriminate H.
Qed.

(** ** Single-precision readings *)

Lemma fle_trans_nonneg (x y z : f32) :
  is_nonneg x = true -> is_nonneg y = true -> is_nonneg z = true ->
  fle x y = true -> fle y z = true -> fle x z = true.
Proof.
  destruct x as [sx | sx | | sx mx ex]; try discriminate;
    destruct y as [sy | sy | | sy my ey]; try discriminate;
    destruct z as [sz | sz | | sz mz ez]; try discriminate;
    try destruct sx; try destruct sy; try destruct sz;
    try discriminate; try reflexivity.
  unfold fle, SFleb, SFcompare. intros _ _ _.
  change (Pos.compare_cont Eq) with Pos.compare.
  destruct (Z.compare_spec ex ey), (Z.compare_spec ey ez), (Z.compare_spec ex ez);
    try lia; try discriminate; try reflexivity.
  destruct (Pos.compare_spec mx my), (Pos.compare_spec my mz), (Pos.compare_spec mx mz);
    try lia; try discriminate; try reflexivity.
Qed.

Lemma Qltb_lt (x y : Q) : Qltb x y = true <-> (x < y)%Q.
Proof. unfold Qltb, Qlt. apply Z.ltb_lt. Qed.

Lemma readings_checked : forallb reading_ok raw_codes = true.
Proof. vm_compute. reflexivity. Qed.

Lemma alarms_checked : forallb alarm_ok raw_codes = true.
Proof. vm_compute. reflexivity. Qed.

Lemma reading_ok_at (z : Z) : 0 <= z <= 4095 -> reading_ok z = true.
Proof.
  intros H. apply (forallb_range reading_ok 4096 readings_checked). lia.
Qed.

Lemma alarm_ok_at (z : Z) : 0 <= z <= 4095 -> alarm_ok z = true.
Proof.
  intros H. apply (forallb_range alarm_ok 4096 alarms_checked). lia.
Qed.

Lemma toAmplitude_nonneg (z : Z) :
  0 <= z <= 4095 -> is_nonneg (Stall.toAmplitude z) = true.
Proof.
  intros H. pose proof (reading_ok_at z H) as K. unfold reading_ok in K.
  cbv zeta in K. rewrite !andb_true_iff in K. tauto.
Qed.

Lemma toAmplitude_step (z : Z) :
  0 <= z < 4095 -> fle (Stall.toAmplitude z) (Stall.toAmplitude (z + 1)) = true.
Proof.
  intros H. pose proof (reading_ok_at z ltac:(lia)) as K. unfold reading_ok in K.
  cbv zeta in K. rewrite !andb_true_iff in K.
  destruct K as [[[[[[[[[[[[_ _] _] S] _] _] _] _] _] _] _] _] _].
  apply orb_true_iff in S. destruct S as [S | S]; [|exact S].
  apply Z.eqb_eq in S. lia.
Qed.

Lemma toAmplitude_refl (z : Z) :
  0 <= z <= 4095 -> fle (Stall.toAmplitude z) (Stall.toAmplitude z) = true.
Proof.
  intros H. pose proof (toAmplitude_nonneg z H) as N.
  destruct (Stall.toAmplitude z) as [s | s | | s m e]; try discriminate.
  - reflexivity.
  - destruct s; [discriminate|].
    unfold fle, SFleb, SFcompare. rewrite Z.compare_refl.
    change (Pos.compare_cont Eq) with Pos.compare.
    rewrite Pos.compare_refl. reflexivity.
Qed.

Lemma toAmplitude_monotone (n : nat) :
  forall z, 0 <= z -> z + Z.of_nat n <= 4095 ->
            fle (Stall.toAmplitude z) (Stall.toAmplitude (z + Z.of_nat n)) = true.
Proof.
  induction n as [| n IH]; intros z Hz Hn.
  - replace (z + Z.of_nat 0) with z by lia. apply toAmplitude_refl. lia.
  - apply (fle_trans_nonneg _ (Stall.toAmplitude (z + Z.of_nat n))).
    + apply toAmplitude_nonneg; lia.
    + apply toAmplitude_nonneg; lia.
    + apply toAmplitude_nonneg; lia.
    + apply IH; lia.
    + replace (z + Z.of_nat (S n)) with (z + Z.of_nat n + 1) by lia.
      apply toAmplitude_step. lia.
Qed.

(** C6: for the codes 0..4095 the amplitude [raw / 4095.0f] is the rational
    raw/4095 up to half a unit in the last place, does not decrease with the
    code, and lies in [0, 1]; the velocity is the amplitude times 300 and the
    angle the amplitude less one half, times 60, which lies in [-30, 30]
    (both ends reached, at codes 0 and 4095). *)
Theorem unit_conversions (raw raw' : Z) :
  0 <= raw <= 4095 -> 0 <= raw' <= 4095 -> raw <= raw' ->
  Stall.toAmplitude raw = fdiv (of_int raw) (of_int 4095)
  /\ (Qabs (F2Q (Stall.toAmplitude raw) - (raw # 4095)) <= 1 # 33554432)%Q
  /\ fle (Stall.toAmplitude raw) (Stall.toAmplitude raw') = true
  /\ fle (of_int 0) (Stall.toAmplitude raw) = true
  /\ fle (Stall.toAmplitude raw) (of_int 1) = true
  /\ Stall.current_velocity raw = fmul (Stall.toAmplitude raw) (of_int 300)
  /\ Stall.current_AoA raw
     = fmul (fsub (Stall.toAmplitude raw) (literal 5 10)) (of_int 60)
  /\ fle (of_int (-30)) (Stall.current_AoA raw) = true
  /\ fle (Stall.current_AoA raw) (of_int 30) = true
  /\ (Qabs (F2Q (Stall.current_AoA raw) - ((raw # 4095) - (1 # 2)) * 60)
      <= 1 # 500000)%Q
  /\ Stall.current_AoA 0 = of_int (-30)
  /\ Stall.current_AoA 4095 = of_int 30.
Proof.
  intros H H' Hle.
  pose proof (reading_ok_at raw H) as K. unfold reading_ok in K.
  cbv zeta in K. rewrite !andb_true_iff in K.
  destruct K as [[[[[[[[[[[[_ K0] K1] _] KA] _] _] _] _] _] A0] A1] AQ].
  repeat split; try assumption; try reflexivity.
  - apply Qle_bool_imp_le, KA.
  - replace raw' with (raw + Z.of_nat (Z.to_nat (raw' - raw))) by lia.
    apply toAmplitude_monotone; lia.
  - apply Qle_bool_imp_le, AQ.
Qed.

Lemma unit_conversions_witness :
  Stall.toAmplitude 1024 = fdiv (of_int 1024) (of_int 4095)
  /\ (Qabs (F2Q (Stall.toAmplitude 1024) - (1024 # 4095)) <= 1 # 33554432)%Q
  /\ fle (Stall.toAmplitude 1024) (Stall.toAmplitude 3072) = true
  /\ fle (of_int 0) (Stall.toAmplitude 1024) = true
  /\ fle (Stall.toAmplitude 1024) (of_int 1) = true
  /\ Stall.current_velocity 1024 = fmul (Stall.toAmplitude 1024) (of_int 300)
  /\ Stall.current_AoA 1024
     = fmul (fsub (Stall.toAmplitude 1024) (literal 5 10)) (of_int 60)
  /\ fle (of_int (-30)) (Stall.current_AoA 1024) = true
  /\ fle (Stall.current_AoA 1024) (of_int 30) = true
  /\ (Qabs (F2Q (Stall.current_AoA 1024) - ((1024 # 4095) - (1 # 2)) * 60)
      <= 1 # 500000)%Q
  /\ Stall.current_AoA 0 = of_int (-30)
  /\ Stall.current_AoA 4095 = of_int 30.
Proof. apply (unit_conversions 1024 3072); lia. Defined.

(** C1: the alarm is the disjunction of the two float comparisons and the
    word stored is 0x3FF under alarm, 0 otherwise; when both completion bits
    are set the pass stores exactly that word for the readings converted from
    the two samples, and on those readings the float comparisons are the
    comparisons of the values: velocity below the threshold or angle above 15
    degrees. *)
Theorem stall_alarm_and_mask (dev : device) (hist : list event) (prior : Z) :
  let w0 := sample dev hist ADC_CH0 in
  let w1 := sample dev (EvLoad ADC_CH0 w0 :: hist) ADC_CH1 in
  let velocity := Stall.current_velocity (Z.land w0 0xFFF) in
  let angle := Stall.current_AoA (Z.land w1 0xFFF) in
  let alarm := Stall.stalling Stall.velocity_stall velocity angle in
  Z.testbit w0 16 = true -> Z.testbit w1 16 = true ->
  (alarm = true <->
   flt velocity Stall.velocity_stall = true \/ fgt angle Stall.MAX_AOA = true)
  /\ (alarm = true <->
      (F2Q velocity < F2Q Stall.velocity_stall)%Q \/ (15 < F2Q angle)%Q)
  /\ trace dev hist (Stall.iteration Stall.velocity_stall)
     = [EvLoad ADC_CH0 w0; EvLoad ADC_CH1 w1;
        EvStore JP1_DATA (if alarm then 0x3FF else 0x000); EvDelay]
  /\ actuator prior (trace dev hist (Stall.iteration Stall.velocity_stall))
     = (if alarm then 0x3FF else 0x000).
Proof.
  intros w0 w1 velocity angle alarm D0 D1.
  assert (T : trace dev hist (Stall.iteration Stall.velocity_stall)
              = [EvLoad ADC_CH0 w0; EvLoad ADC_CH1 w1;
                 EvStore JP1_DATA (if alarm then 0x3FF else 0x000); EvDelay]).
  { rewrite stall_iteration_trace. fold w0. fold w1. rewrite D0, D1. reflexivity. }
  assert (F : alarm = true <->
              flt velocity Stall.velocity_stall = true
              \/ fgt angle Stall.MAX_AOA = true).
  { unfold alarm, Stall.stalling. apply orb_true_iff. }
  pose proof (alarm_ok_at _ (land_0xFFF_range w0)) as A0.
  pose proof (alarm_ok_at _ (land_0xFFF_range w1)) as A1.
  unfold alarm_ok in A0, A1. rewrite andb_true_iff in A0, A1.
  destruct A0 as [A0 _]. destruct A1 as [_ A1].
  apply eqb_prop in A0. apply eqb_prop in A1.
  fold velocity in A0. fold angle in A1.
  split; [exact F | split; [| split]].
  - rewrite F, A0, A1, !Qltb_lt. reflexivity.
  - exact T.
  - rewrite T. cbn [actuator]. reflexivity.
Qed.

Lemma stall_alarm_and_mask_witness :
  let dev := static_device 0x10200 0x10800 0 in
  let velocity := Stall.current_velocity (Z.land 0x10200 0xFFF) in
  let angle := Stall.current_AoA (Z.land 0x10800 0xFFF) in
  let alarm := Stall.stalling Stall.velocity_stall velocity angle in
  (alarm = true <->
   flt velocity Stall.velocity_stall = true \/ fgt angle Stall.MAX_AOA = true)
  /\ (alarm = true <->
      (F2Q velocity < F2Q Stall.velocity_stall)%Q \/ (15 < F2Q angle)%Q)
  /\ trace dev [] (Stall.iteration Stall.velocity_stall)
     = [EvLoad ADC_CH0 0x10200; EvLoad ADC_CH1 0x10800;
        EvStore JP1_DATA (if alarm then 0x3FF else 0x000); EvDelay]
  /\ actuator 0 (trace dev [] (Stall.iteration Stall.velocity_stall))
     = (if alarm then 0x3FF else 0x000).
Proof.
  apply (stall_alarm_and_mask (static_device 0x10200 0x10800 0) [] 0);
    reflexivity.
Defined.

(** ** The stall threshold *)

(** C2 as the code has it: the threshold is computed once, before the loop,
    by the stated formula in single precision; with the program's constants
    it is 13537058 * 2^-17, about 103.28 (its square is within 0.01 of
    2 * 980000 / (1.225 * 125 * 1.2)), and with angle 0 the alarm is raised at
    velocity 100 and not at velocity 150. *)
Theorem stall_threshold :
  Stall.velocity_stall
  = fsqrt (fdiv (fmul (of_int 2) Stall.WEIGHT)
             (fmul (fmul Stall.RHO Stall.WING_AREA) Stall.CL_MAX))
  /\ (forall n, Stall.main n
                = bind Stall.init (fun _ => loop n (Stall.iteration Stall.velocity_stall)))
  /\ Stall.velocity_stall = S754_finite false 13537058 (-17)
  /\ (Qabs (F2Q Stall.velocity_stall - (10328 # 100)) <= 1 # 200)%Q
  /\ (Qabs (F2Q Stall.velocity_stall * F2Q Stall.velocity_stall
            - (2 * 980000 # 1) / ((1225 # 1000) * 125 * (12 # 10))) <= 1 # 100)%Q
  /\ Stall.stalling Stall.velocity_stall (of_int 100) (of_int 0) = true
  /\ Stall.stalling Stall.velocity_stall (of_int 150) (of_int 0) = false.
Proof.
  repeat split.
  - apply Qle_bool_imp_le. vm_compute. reflexivity.
  - apply Qle_bool_imp_le. vm_compute. reflexivity.
Qed.

(** C2, the claim as stated fails: the threshold is more than 12 units away
    from 115.96, and a velocity reading of about 110 (code 1502, angle code
    2048) is below 115.96 yet raises no alarm. *)
Lemma stall_threshold_not_115_96 :
  ~ (Qabs (F2Q Stall.velocity_stall - (11596 # 100)) <= 12)%Q
  /\ (F2Q (Stall.current_velocity 1502) < 11596 # 100)%Q
  /\ Stall.stalling Stall.velocity_stall
       (Stall.current_velocity 1502) (Stall.current_AoA 2048) = false.
Proof.
  split; [|split].
  - intros H. apply Qle_bool_iff in H. vm_compute in H. discriminate H.
  - apply Qltb_lt. vm_compute. reflexivity.
  - vm_compute. reflexivity.
Qed.

(** ** Concrete runs *)

(** The decimal literals as single-precision bit patterns: 1.225f is
    0x3F9CCCCD and 1.2f is 0x3F99999A. *)
Example literals_bits :
  Stall.RHO = S754_finite false 0x9CCCCD (-23)
  /\ Stall.CL_MAX = S754_finite false 0x99999A (-23)
  /\ literal 5 10 = S754_finite false 0x800000 (-24).
Proof. repeat split. Qed.

(** Bar graph, switch low, channel 0 at mid scale: five LEDs. *)
Example bargraph_mid_scale :
  trace (static_device 0x10800 0 0) [] Bargraph.iteration
  = [EvLoad SW 0; EvLoad ADC_CH0 0x10800; EvStore JP1_DATA 0x1F; EvDelay].
Proof. reflexivity. Qed.

(** Bar graph, switch high, channel 1 at full scale: ten LEDs. *)
Example bargraph_full_scale :
  trace (static_device 0 0x10FFF 1) [] Bargraph.iteration
  = [EvLoad SW 1; EvLoad ADC_CH1 0x10FFF; EvStore JP1_DATA 0x3FF; EvDelay].
Proof. reflexivity. Qed.

(** Stall indicator: slow (code 512, 37.5 units) lights the LEDs, fast and
    level (codes 2048, 2048) clears them, fast and steep (code 3500 on the
    angle channel, about 21 degrees) lights them again. *)
Example stall_runs :
  trace (static_device 0x10200 0x10800 0) [] (Stall.iteration Stall.velocity_stall)
  = [EvLoad ADC_CH0 0x10200; EvLoad ADC_CH1 0x10800; EvStore JP1_DATA 0x3FF; EvDelay]
  /\ trace (static_device 0x10800 0x10800 0) [] (Stall.iteration Stall.velocity_stall)
     = [EvLoad ADC_CH0 0x10800; EvLoad ADC_CH1 0x10800; EvStore JP1_DATA 0; EvDelay]
  /\ trace (static_device 0x10800 0x10DAC 0) [] (Stall.iteration Stall.velocity_stall)
     = [EvLoad ADC_CH0 0x10800; EvLoad ADC_CH1 0x10DAC; EvStore JP1_DATA 0x3FF; EvDelay].
Proof. repeat split; vm_compute; reflexivity. Qed.

(** * Further properties of the two programs *)

(** ** Helpers on traces *)

Lemma count_app (P : event -> bool) (t1 t2 : list event) :
  count P (t1 ++ t2) = (count P t1 + count P t2)%nat.
Proof. unfold count. rewrite filter_app, length_app. reflexivity. Qed.

Lemma trace_loop_count (P : event -> bool) (dev : device) (body : prog unit) (c : nat) :
  (forall hist, count P (trace dev hist body) = c) ->
  forall n hist, count P (trace dev hist (loop n body)) = (n * c)%nat.
Proof.
  intros Hbody n. induction n as [| n IH]; intros hist.
  - reflexivity.
  - cbn [loop]. rewrite trace_bind, count_app, Hbody, IH. reflexivity.
Qed.

Lemma trace_loop_count_le (P : event -> bool) (dev : device) (body : prog unit) (c : nat) :
  (forall hist, (count P (trace dev hist body) <= c)%nat) ->
  forall n hist, (count P (trace dev hist (loop n body)) <= n * c)%nat.
Proof.
  intros Hbody n. induction n as [| n IH]; intros hist.
  - cbn. lia.
  - cbn [loop]. rewrite trace_bind, count_app.
    pose proof (Hbody hist) as B.
    pose proof (IH (rev (trace dev hist body) ++ hist)) as L. lia.
Qed.

Lemma count_pos_existsb (P : event -> bool) (t : list event) :
  (0 < count P t)%nat -> existsb P t = true.
Proof.
  unfold count. induction t as [| e t IH]; cbn [filter existsb length].
  - lia.
  - destruct (P e); [reflexivity|]. exact IH.
Qed.

Lemma actuator_unchanged (t : list event) :
  forallb no_data_store t = true -> forall prior, actuator prior t = prior.
Proof.
  induction t as [| e t IH]; cbn [forallb actuator]; intros H prior.
  - reflexivity.
  - apply andb_true_iff in H. destruct H as [He Ht].
    destruct e as [r w | r w |]; try (apply IH, Ht).
    destruct r; try (apply IH, Ht). discriminate He.
Qed.

Lemma forallb_no_data_store (t : list event) :
  forallb no_data_store t = true -> existsb (is_store_to JP1_DATA) t = false.
Proof.
  induction t as [| e t IH]; cbn [forallb existsb]; intros H.
  - reflexivity.
  - apply andb_true_iff in H. destruct H as [He Ht].
    unfold no_data_store in He. apply negb_true_iff in He.
    rewrite He, (IH Ht). reflexivity.
Qed.

Lemma stall_main_trace (dev : device) (hist : list event) (n : nat) :
  trace dev hist (Stall.main n)
  = init_events
      ++ trace dev (rev init_events ++ hist)
           (loop n (Stall.iteration Stall.velocity_stall)).
Proof. unfold Stall.main. cbv zeta. rewrite trace_bind. reflexivity. Qed.

Lemma bargraph_main_trace (dev : device) (hist : list event) (n : nat) :
  trace dev hist (Bargraph.main n)
  = init_events
      ++ trace dev (rev init_events ++ hist) (loop n Bargraph.iteration).
Proof. unfold Bargraph.main. rewrite trace_bind. reflexivity. Qed.

Lemma bar_word_of_code (w : Z) :
  existsb (Z.eqb (Bargraph.led_mask (Bargraph.led_count (Z.land w 0xFFF))))
          bar_words = true.
Proof.
  pose proof (led_count_range (Z.land w 4095) (land_0xFFF_range w)) as C.
  rewrite led_mask_ones by exact C.
  set (k := Bargraph.led_count (Z.land w 4095)) in *.
  assert (E : k = 0 \/ k = 1 \/ k = 2 \/ k = 3 \/ k = 4 \/ k = 5 \/ k = 6
              \/ k = 7 \/ k = 8 \/ k = 9 \/ k = 10) by lia.
  repeat (destruct E as [E | E]; [rewrite E; reflexivity|]).
  rewrite E; reflexivity.
Qed.

(** Per-pass facts, for either program. *)
Ltac stall_pass :=
  intros; rewrite stall_iteration_trace;
  destruct (Z.testbit _ 16 && Z.testbit _ 16);
  [destruct (Stall.stalling _ _ _)|]; cbn; try reflexivity; try lia.

Ltac bargraph_pass :=
  intros; rewrite bargraph_iteration_trace; unfold Bargraph.selected;
  destruct (Z.land _ 1 =? 0); destruct (Z.testbit _ 16);
  cbn; try reflexivity; try lia.

(** ** Start-up and pacing *)

(** X1: every run of either program starts with the same three stores
    (direction register 0x3FF, then 1 to ADC channel 0, then 1 to ADC channel
    1), and after them the only register ever stored to is the LED data
    register: the configuration is written once and never again. *)
Theorem configuration_written_once (dev : device) (hist : list event) (n : nat) :
  firstn 3 (trace dev hist (Stall.main n)) = init_events
  /\ forallb no_config_store (skipn 3 (trace dev hist (Stall.main n))) = true
  /\ firstn 3 (trace dev hist (Bargraph.main n)) = init_events
  /\ forallb no_config_store (skipn 3 (trace dev hist (Bargraph.main n))) = true.
Proof.
  rewrite stall_main_trace, bargraph_main_trace.
  unfold init_events at 1 2 3 5 6. cbn [app firstn skipn].
  repeat split.
  - apply trace_loop_forallb. stall_pass.
  - apply trace_loop_forallb. bargraph_pass.
Qed.

(** X2: a run of [n] passes, against any device, has exactly [n] delays and
    exactly [2 n] loads, and at most [n] stores to the LED data register: two
    loads, at most one LED update and one delay per pass. *)
Theorem run_pacing (dev : device) (hist : list event) (n : nat) :
  count is_delay (trace dev hist (Stall.main n)) = n
  /\ count is_load (trace dev hist (Stall.main n)) = (2 * n)%nat
  /\ (count (is_store_to JP1_DATA) (trace dev hist (Stall.main n)) <= n)%nat
  /\ count is_delay (trace dev hist (Bargraph.main n)) = n
  /\ count is_load (trace dev hist (Bargraph.main n)) = (2 * n)%nat
  /\ (count (is_store_to JP1_DATA) (trace dev hist (Bargraph.main n)) <= n)%nat.
Proof.
  rewrite stall_main_trace, bargraph_main_trace, !count_app.
  change (count is_delay init_events) with 0%nat.
  change (count is_load init_events) with 0%nat.
  change (count (is_store_to JP1_DATA) init_events) with 0%nat.
  cbn [Nat.add].
  split; [|split; [|split; [|split; [|split]]]].
  - rewrite (trace_loop_count is_delay dev _ 1); [lia | stall_pass].
  - rewrite (trace_loop_count is_load dev _ 2); [lia | stall_pass].
  - assert (B : forall h, (count (is_store_to JP1_DATA)
                               (trace dev h (Stall.iteration Stall.velocity_stall))
                             <= 1)%nat) by stall_pass.
    pose proof (trace_loop_count_le _ dev _ 1 B n (rev init_events ++ hist)). lia.
  - rewrite (trace_loop_count is_delay dev _ 1); [lia | bargraph_pass].
  - rewrite (trace_loop_count is_load dev _ 2); [lia | bargraph_pass].
  - assert (B : forall h, (count (is_store_to JP1_DATA)
                               (trace dev h Bargraph.iteration) <= 1)%nat)
      by bargraph_pass.
    pose proof (trace_loop_count_le _ dev _ 1 B n (rev init_events ++ hist)). lia.
Qed.

(** ** What the LED port can show *)

(** X4: in every run of the stall indicator each word stored to the LED data
    register is 0 or 0x3FF: the display is all off or all on, never a partial
    pattern. *)
Theorem stall_display_all_or_nothing (dev : device) (hist : list event) (n : nat) :
  forallb stall_store_ok (trace dev hist (Stall.main n)) = true.
Proof.
  rewrite stall_main_trace, forallb_app.
  change (forallb stall_store_ok init_events) with true. cbn [andb].
  apply trace_loop_forallb. stall_pass.
Qed.

(** X5: in every run of the bar graph each word stored to the LED data
    register is one of the eleven bars 0, 1, 3, 7, ..., 0x3FF: the lit LEDs
    are always contiguous from LED 0. *)
Theorem bargraph_display_is_a_bar (dev : device) (hist : list event) (n : nat) :
  forallb bar_store_ok (trace dev hist (Bargraph.main n)) = true.
Proof.
  rewrite bargraph_main_trace, forallb_app.
  change (forallb bar_store_ok init_events) with true. cbn [andb].
  apply trace_loop_forallb. intros h.
  rewrite bargraph_iteration_trace.
  assert (S : forall r w, bar_store_ok (EvLoad r w) = true) by reflexivity.
  cbn [forallb]. rewrite !S.
  destruct (Z.testbit _ 16); [|reflexivity].
  cbn [forallb bar_store_ok andb]. rewrite bar_word_of_code. reflexivity.
Qed.

(** X6: for a 12-bit sample, LED [i] of the bar graph is lit exactly when
    ten times the sample reaches [4095 * (i + 1)]; so no LED is lit up to
    code 409 and all ten are lit only at full scale, code 4095. *)
Theorem led_lit_threshold (adc_value i : Z) :
  0 <= adc_value <= 4095 -> 0 <= i ->
  let mask := Bargraph.led_mask (Bargraph.led_count adc_value) in
  Z.testbit mask i = (4095 * (i + 1) <=? adc_value * 10)
  /\ (mask = 0 <-> adc_value <= 409)
  /\ (mask = 0x3FF <-> adc_value = 4095).
Proof.
  intros H Hi mask.
  pose proof (led_count_range adc_value H) as R.
  pose proof (led_count_eq adc_value H) as E.
  pose proof (Z.div_mod (adc_value * 10) 4095 ltac:(lia)) as D.
  pose proof (Z.mod_pos_bound (adc_value * 10) 4095 ltac:(lia)) as B.
  rewrite <- E in D.
  assert (M : mask = Z.ones (Bargraph.led_count adc_value))
    by (apply led_mask_ones, R).
  split; [|split].
  - rewrite M, Z.testbit_ones_nonneg by lia.
    destruct (Z.ltb_spec i (Bargraph.led_count adc_value));
      destruct (Z.leb_spec (4095 * (i + 1)) (adc_value * 10));
      try reflexivity; lia.
  - rewrite M, Z.ones_equiv.
    assert (P : Bargraph.led_count adc_value = 0 \/ 1 <= Bargraph.led_count adc_value)
      by lia.
    destruct P as [P | P].
    + rewrite P. cbn. lia.
    + assert (2 ^ 1 <= 2 ^ Bargraph.led_count adc_value)
        by (apply Z.pow_le_mono_r; lia).
      change (2 ^ 1) with 2 in *. lia.
  - rewrite M, Z.ones_equiv.
    assert (P : Bargraph.led_count adc_value = 10 \/ Bargraph.led_count adc_value <= 9)
      by lia.
    destruct P as [P | P].
    + rewrite P. cbn. lia.
    + assert (2 ^ Bargraph.led_count adc_value <= 2 ^ 9)
        by (apply Z.pow_le_mono_r; lia).
      change (2 ^ 9) with 512 in *. lia.
Qed.

Lemma led_lit_threshold_witness :
  let mask := Bargraph.led_mask (Bargraph.led_count 2048) in
  Z.testbit mask 4 = (4095 * (4 + 1) <=? 2048 * 10)
  /\ (mask = 0 <-> 2048 <= 409)
  /\ (mask = 0x3FF <-> 2048 = 4095).
Proof. apply (led_lit_threshold 2048 4); lia. Defined.

(** X7: the bar only grows with the sample: for 12-bit samples
    [adc1 <= adc2] every LED lit for [adc1] is lit for [adc2], and one more
    code lights at most one more LED. *)
Theorem bar_grows_with_sample (adc1 adc2 : Z) :
  0 <= adc1 -> adc1 <= adc2 -> adc2 <= 4095 ->
  let mask1 := Bargraph.led_mask (Bargraph.led_count adc1) in
  let mask2 := Bargraph.led_mask (Bargraph.led_count adc2) in
  Z.land mask1 mask2 = mask1
  /\ (adc2 = adc1 + 1 ->
      Bargraph.led_count adc2 <= Bargraph.led_count adc1 + 1).
Proof.
  intros H0 H1 H2 mask1 mask2.
  pose proof (led_count_range adc1 ltac:(lia)) as R1.
  pose proof (led_count_range adc2 ltac:(lia)) as R2.
  pose proof (led_count_eq adc1 ltac:(lia)) as E1.
  pose proof (led_count_eq adc2 ltac:(lia)) as E2.
  assert (L : Bargraph.led_count adc1 <= Bargraph.led_count adc2).
  { rewrite E1, E2. apply Z.div_le_mono; lia. }
  split.
  - unfold mask1, mask2. rewrite !led_mask_ones by assumption.
    apply Z.bits_inj'. intros k Hk.
    rewrite Z.land_spec, !Z.testbit_ones_nonneg by lia.
    destruct (Z.ltb_spec k (Bargraph.led_count adc1));
      destruct (Z.ltb_spec k (Bargraph.led_count adc2)); try reflexivity; lia.
  - intros ->.
    pose proof (Z.div_mod (adc1 * 10) 4095 ltac:(lia)) as D1.
    pose proof (Z.mod_pos_bound (adc1 * 10) 4095 ltac:(lia)) as B1.
    pose proof (Z.div_mod ((adc1 + 1) * 10) 4095 ltac:(lia)) as D2.
    pose proof (Z.mod_pos_bound ((adc1 + 1) * 10) 4095 ltac:(lia)) as B2.
    rewrite <- E1 in D1. rewrite <- E2 in D2. lia.
Qed.

Lemma bar_grows_with_sample_witness :
  let mask1 := Bargraph.led_mask (Bargraph.led_count 409) in
  let mask2 := Bargraph.led_mask (Bargraph.led_count 410) in
  Z.land mask1 mask2 = mask1
  /\ (410 = 409 + 1 -> Bargraph.led_count 410 <= Bargraph.led_count 409 + 1).
Proof. apply (bar_grows_with_sample 409 410); lia. Defined.

(** ** Which bits of the sampled words matter *)

Lemma land_10FFF_bits (w : Z) :
  Z.testbit w 16 = Z.testbit (Z.land w 0x10FFF) 16
  /\ Z.land w 0xFFF = Z.land (Z.land w 0x10FFF) 0xFFF.
Proof.
  split.
  - rewrite Z.land_spec. change (Z.testbit 0x10FFF 16) with true.
    rewrite andb_true_r. reflexivity.
  - rewrite <- Z.land_assoc. reflexivity.
Qed.

Lemma land_10FFF_eq (w w' : Z) :
  Z.land w 0x10FFF = Z.land w' 0x10FFF ->
  Z.testbit w 16 = Z.testbit w' 16 /\ Z.land w 0xFFF = Z.land w' 0xFFF.
Proof.
  intros E.
  destruct (land_10FFF_bits w) as [T L], (land_10FFF_bits w') as [T' L'].
  rewrite T, T', L, L', E. split; reflexivity.
Qed.

(** X8: what a pass stores depends only on bits 0..11 and bit 16 of the words
    it polled: two runs whose polled words agree under the mask 0x10FFF do
    the same stores, whatever the other bits (bit 31 included, though the
    stall indicator reads the words as signed [int]) and, for the bar graph,
    whichever channel the switch selected. *)
Theorem only_sample_and_done_bits_matter
        (dev dev' : device) (hist hist' : list event) (v_stall : f32) :
  (let w0 := sample dev hist ADC_CH0 in
   let w1 := sample dev (EvLoad ADC_CH0 w0 :: hist) ADC_CH1 in
   let w0' := sample dev' hist' ADC_CH0 in
   let w1' := sample dev' (EvLoad ADC_CH0 w0' :: hist') ADC_CH1 in
   Z.land w0 0x10FFF = Z.land w0' 0x10FFF ->
   Z.land w1 0x10FFF = Z.land w1' 0x10FFF ->
   filter is_output (trace dev hist (Stall.iteration v_stall))
   = filter is_output (trace dev' hist' (Stall.iteration v_stall)))
  /\
  (let sw := sample dev hist SW in
   let w := sample dev (EvLoad SW sw :: hist) (Bargraph.selected sw) in
   let sw' := sample dev' hist' SW in
   let w' := sample dev' (EvLoad SW sw' :: hist') (Bargraph.selected sw') in
   Z.land w 0x10FFF = Z.land w' 0x10FFF ->
   filter is_output (trace dev hist Bargraph.iteration)
   = filter is_output (trace dev' hist' Bargraph.iteration)).
Proof.
  split.
  - intros w0 w1 w0' w1' E0 E1.
    apply land_10FFF_eq in E0. apply land_10FFF_eq in E1.
    destruct E0 as [T0 L0], E1 as [T1 L1].
    rewrite !stall_iteration_trace.
    fold w0. fold w1. fold w0'. fold w1'.
    rewrite T0, T1, L0, L1. reflexivity.
  - intros sw w sw' w' E.
    apply land_10FFF_eq in E. destruct E as [T L].
    rewrite !bargraph_iteration_trace.
    fold sw. fold w. fold sw'. fold w'.
    rewrite T, L. reflexivity.
Qed.

Lemma only_sample_and_done_bits_matter_witness :
  filter is_output
    (trace (static_device 0x10200 0x10800 0) [] (Stall.iteration Stall.velocity_stall))
  = filter is_output
      (trace (static_device 0xFFFF1200 0x7FF1E800 1) [EvDelay]
         (Stall.iteration Stall.velocity_stall))
  /\ filter is_output (trace (static_device 0x10800 0 0) [] Bargraph.iteration)
     = filter is_output
         (trace (static_device 0 0xABC18800 1) [EvDelay] Bargraph.iteration).
Proof.
  split.
  - apply (proj1 (only_sample_and_done_bits_matter
                    (static_device 0x10200 0x10800 0)
                    (static_device 0xFFFF1200 0x7FF1E800 1)
                    [] [EvDelay] Stall.velocity_stall)); reflexivity.
  - apply (proj2 (only_sample_and_done_bits_matter
                    (static_device 0x10800 0 0)
                    (static_device 0 0xABC18800 1)
                    [] [EvDelay] Stall.velocity_stall)); reflexivity.
Defined.

(** ** Devices that never, or always, report completion *)

(** X11: if bit 16 is never set in the words of the two ADC channels, as on
    a target that signals completion on bit 15, no run of either program ever
    stores to the LED data register: the LEDs keep their prior state through
    any number of passes, and the programs have no fallback. *)
Theorem never_done_never_updates (dev : device) :
  (forall hist, Z.testbit (sample dev hist ADC_CH0) 16 = false) ->
  (forall hist, Z.testbit (sample dev hist ADC_CH1) 16 = false) ->
  forall (n : nat) (hist : list event) (prior : Z),
    existsb (is_store_to JP1_DATA) (trace dev hist (Stall.main n)) = false
    /\ actuator prior (trace dev hist (Stall.main n)) = prior
    /\ existsb (is_store_to JP1_DATA) (trace dev hist (Bargraph.main n)) = false
    /\ actuator prior (trace dev hist (Bargraph.main n)) = prior.
Proof.
  intros H0 H1 n hist prior.
  assert (S : forallb no_data_store (trace dev hist (Stall.main n)) = true).
  { rewrite stall_main_trace, forallb_app.
    change (forallb no_data_store init_events) with true. cbn [andb].
    apply trace_loop_forallb. intros h.
    rewrite stall_iteration_trace, H0. reflexivity. }
  assert (B : forallb no_data_store (trace dev hist (Bargraph.main n)) = true).
  { rewrite bargraph_main_trace, forallb_app.
    change (forallb no_data_store init_events) with true. cbn [andb].
    apply trace_loop_forallb. intros h.
    rewrite bargraph_iteration_trace. unfold Bargraph.selected.
    destruct (Z.land _ 1 =? 0); [rewrite H0 | rewrite H1]; reflexivity. }
  repeat split.
  - apply forallb_no_data_store, S.
  - apply actuator_unchanged, S.
  - apply forallb_no_data_store, B.
  - apply actuator_unchanged, B.
Qed.

Lemma never_done_never_updates_witness :
  existsb (is_store_to JP1_DATA)
    (trace (static_device 0x8FFF 0x8FFF 1) [] (Stall.main 3)) = false
  /\ actuator 0x155 (trace (static_device 0x8FFF 0x8FFF 1) [] (Stall.main 3)) = 0x155
  /\ existsb (is_store_to JP1_DATA)
       (trace (static_device 0x8FFF 0x8FFF 1) [] (Bargraph.main 3)) = false
  /\ actuator 0x155 (trace (static_device 0x8FFF 0x8FFF 1) [] (Bargraph.main 3)) = 0x155.
Proof.
  apply (never_done_never_updates (static_device 0x8FFF 0x8FFF 1));
    intros hist; reflexivity.
Defined.

(** X12: if bit 16 is always set in the words of the two ADC channels, every
    pass updates the LEDs: a run of [n] passes stores to the LED data register
    exactly [n] times, and after at least one pass the LED state does not
    depend on the state before the run. *)
Theorem always_done_always_updates (dev : device) :
  (forall hist, Z.testbit (sample dev hist ADC_CH0) 16 = true) ->
  (forall hist, Z.testbit (sample dev hist ADC_CH1) 16 = true) ->
  forall (n : nat) (hist : list event),
    count (is_store_to JP1_DATA) (trace dev hist (Stall.main n)) = n
    /\ count (is_store_to JP1_DATA) (trace dev hist (Bargraph.main n)) = n
    /\ ((0 < n)%nat ->
        forall p1 p2,
          actuator p1 (trace dev hist (Stall.main n))
          = actuator p2 (trace dev hist (Stall.main n))
          /\ actuator p1 (trace dev hist (Bargraph.main n))
             = actuator p2 (trace dev hist (Bargraph.main n))).
Proof.
  intros H0 H1 n hist.
  assert (S : count (is_store_to JP1_DATA) (trace dev hist (Stall.main n)) = n).
  { rewrite stall_main_trace, count_app.
    change (count (is_store_to JP1_DATA) init_events) with 0%nat. cbn [Nat.add].
    rewrite (trace_loop_count _ dev _ 1); [lia|]. intros h.
    rewrite stall_iteration_trace, H0, H1. cbn [andb].
    destruct (Stall.stalling _ _ _); reflexivity. }
  assert (B : count (is_store_to JP1_DATA) (trace dev hist (Bargraph.main n)) = n).
  { rewrite bargraph_main_trace, count_app.
    change (count (is_store_to JP1_DATA) init_events) with 0%nat. cbn [Nat.add].
    rewrite (trace_loop_count _ dev _ 1); [lia|]. intros h.
    rewrite bargraph_iteration_trace. unfold Bargraph.selected.
    destruct (Z.land _ 1 =? 0); [rewrite H0 | rewrite H1]; reflexivity. }
  split; [exact S | split; [exact B |]].
  intros Hn p1 p2. split; apply actuator_overwritten, count_pos_existsb; lia.
Qed.

Lemma always_done_always_updates_witness :
  count (is_store_to JP1_DATA)
    (trace (static_device 0x10200 0x10800 0) [] (Stall.main 2)) = 2%nat
  /\ count (is_store_to JP1_DATA)
       (trace (static_device 0x10200 0x10800 0) [] (Bargraph.main 2)) = 2%nat
  /\ ((0 < 2)%nat ->
      forall p1 p2,
        actuator p1 (trace (static_device 0x10200 0x10800 0) [] (Stall.main 2))
        = actuator p2 (trace (static_device 0x10200 0x10800 0) [] (Stall.main 2))
        /\ actuator p1 (trace (static_device 0x10200 0x10800 0) [] (Bargraph.main 2))
           = actuator p2 (trace (static_device 0x10200 0x10800 0) [] (Bargraph.main 2))).
Proof.
  apply (always_done_always_updates (static_device 0x10200 0x10800 0));
    intros hist; reflexivity.
Defined.

(** ** The stall test in raw codes *)

Lemma thresholds_checked : forallb threshold_ok raw_codes = true.
Proof. vm_compute. reflexivity. Qed.

Lemma reading_steps_checked : forallb reading_step_ok raw_codes = true.
Proof. vm_compute. reflexivity. Qed.

(** X3: with the program's constants and 12-bit samples the alarm is raised
    exactly when the velocity code is at most 1409 or the angle code is at
    least 3072. *)
Theorem stall_code_thresholds (adc_val0 adc_val1 : Z) :
  0 <= adc_val0 <= 4095 -> 0 <= adc_val1 <= 4095 ->
  Stall.stalling Stall.velocity_stall
    (Stall.current_velocity adc_val0) (Stall.current_AoA adc_val1)
  = (adc_val0 <=? 1409) || (3072 <=? adc_val1).
Proof.
  intros H0 H1.
  pose proof (forallb_range threshold_ok 4096 thresholds_checked adc_val0 ltac:(lia)) as T0.
  pose proof (forallb_range threshold_ok 4096 thresholds_checked adc_val1 ltac:(lia)) as T1.
  unfold threshold_ok in T0, T1.
  apply andb_true_iff in T0. apply andb_true_iff in T1.
  destruct T0 as [T0 _]. destruct T1 as [_ T1].
  apply eqb_prop in T0. apply eqb_prop in T1.
  unfold Stall.stalling. rewrite T0, T1. reflexivity.
Qed.

Lemma stall_code_thresholds_witness :
  Stall.stalling Stall.velocity_stall
    (Stall.current_velocity 1410) (Stall.current_AoA 3071)
  = (1410 <=? 1409) || (3072 <=? 3071).
Proof. apply (stall_code_thresholds 1410 3071); lia. Defined.

Lemma readings_step (z : Z) :
  0 <= z < 4095 ->
  (F2Q (Stall.current_velocity z) <= F2Q (Stall.current_velocity (z + 1)))%Q
  /\ (F2Q (Stall.current_AoA z) <= F2Q (Stall.current_AoA (z + 1)))%Q.
Proof.
  intros H.
  pose proof (forallb_range reading_step_ok 4096 reading_steps_checked z ltac:(lia)) as K.
  unfold reading_step_ok in K. apply orb_true_iff in K.
  destruct K as [K | K]; [apply Z.eqb_eq in K; lia|].
  apply andb_true_iff in K. destruct K as [V A].
  split; apply Qle_bool_imp_le; assumption.
Qed.

Lemma readings_monotone (n : nat) :
  forall z, 0 <= z -> z + Z.of_nat n <= 4095 ->
    (F2Q (Stall.current_velocity z)
     <= F2Q (Stall.current_velocity (z + Z.of_nat n)))%Q
    /\ (F2Q (Stall.current_AoA z) <= F2Q (Stall.current_AoA (z + Z.of_nat n)))%Q.
Proof.
  induction n as [| n IH]; intros z Hz Hn.
  - replace (z + Z.of_nat 0) with z by lia. split; apply Qle_refl.
  - destruct (IH z Hz ltac:(lia)) as [V A].
    destruct (readings_step (z + Z.of_nat n) ltac:(lia)) as [V' A'].
    replace (z + Z.of_nat (S n)) with (z + Z.of_nat n + 1) by lia.
    split; eapply Qle_trans; eassumption.
Qed.

(** X9: for the codes 0..4095 the velocity and the angle are finite numbers
    (never an infinity or a NaN), the velocity lies in [0, 300] within 1/50000
    of 300 * raw / 4095, and neither reading decreases when the code grows:
    rounding to single precision does not break the order. *)
Theorem readings_finite_and_ordered (raw raw' : Z) :
  0 <= raw -> raw <= raw' -> raw' <= 4095 ->
  is_finite (Stall.current_velocity raw) = true
  /\ is_finite (Stall.current_AoA raw) = true
  /\ fle (of_int 0) (Stall.current_velocity raw) = true
  /\ fle (Stall.current_velocity raw) (of_int 300) = true
  /\ (Qabs (F2Q (Stall.current_velocity raw) - (raw # 4095) * 300) <= 1 # 50000)%Q
  /\ (F2Q (Stall.current_velocity raw) <= F2Q (Stall.current_velocity raw'))%Q
  /\ (F2Q (Stall.current_AoA raw) <= F2Q (Stall.current_AoA raw'))%Q.
Proof.
  intros H0 H1 H2.
  pose proof (reading_ok_at raw ltac:(lia)) as K. unfold reading_ok in K.
  cbv zeta in K. rewrite !andb_true_iff in K.
  destruct K as [[[[[[[[[[[[_ _] _] _] _] FV] V0] V1] VQ] FA] _] _] _].
  destruct (readings_monotone (Z.to_nat (raw' - raw)) raw H0 ltac:(lia)) as [MV MA].
  replace (raw + Z.of_nat (Z.to_nat (raw' - raw))) with raw' in MV, MA by lia.
  repeat split; try assumption.
  apply Qle_bool_imp_le, VQ.
Qed.

Lemma readings_finite_and_ordered_witness :
  is_finite (Stall.current_velocity 1000) = true
  /\ is_finite (Stall.current_AoA 1000) = true
  /\ fle (of_int 0) (Stall.current_velocity 1000) = true
  /\ fle (Stall.current_velocity 1000) (of_int 300) = true
  /\ (Qabs (F2Q (Stall.current_velocity 1000) - (1000 # 4095) * 300) <= 1 # 50000)%Q
  /\ (F2Q (Stall.current_velocity 1000) <= F2Q (Stall.current_velocity 3000))%Q
  /\ (F2Q (Stall.current_AoA 1000) <= F2Q (Stall.current_AoA 3000))%Q.
Proof. apply (readings_finite_and_ordered 1000 3000); lia. Defined.

(** ** The delay loop *)

Lemma delay_count_unfold (fuel : nat) (i : Z) :
  delay_count fuel i
  = if i <? 100000 then
      match fuel with
      | O => None
      | S fuel' => delay_count fuel' (Int32.to_s32 (i + 1))
      end
    else Some i.
Proof. destruct fuel; reflexivity. Qed.

Lemma to_s32_small (z : Z) : 0 <= z < 2 ^ 31 -> Int32.to_s32 z = z.
Proof.
  intros H. unfold Int32.to_s32.
  change (2 ^ 31) with 2147483648 in *.
  rewrite to_u32_small by (change (2 ^ 32) with 4294967296; lia).
  destruct (Z.ltb_spec z 2147483648); [reflexivity | lia].
Qed.

Lemma delay_count_enough (m : nat) :
  forall (k : nat) (i : Z),
    0 <= i -> Z.of_nat m = 100000 - i ->
    delay_count (m + k) i = Some 100000.
Proof.
  induction m as [| m IH]; intros k i Hi Hm; rewrite delay_count_unfold.
  - destruct (Z.ltb_spec i 100000); [lia|]. f_equal. lia.
  - destruct (Z.ltb_spec i 100000); [|lia]. cbn [Nat.add].
    rewrite to_s32_small by (change (2 ^ 31) with 2147483648; lia).
    apply IH; lia.
Qed.

Lemma delay_count_short (fuel : nat) :
  forall i : Z, 0 <= i -> i + Z.of_nat fuel < 100000 -> delay_count fuel i = None.
Proof.
  induction fuel as [| fuel IH]; intros i Hi Hf; rewrite delay_count_unfold.
  - destruct (Z.ltb_spec i 100000); [reflexivity | lia].
  - destruct (Z.ltb_spec i 100000); [|lia].
    rewrite to_s32_small by (change (2 ^ 31) with 2147483648; lia).
    apply IH; lia.
Qed.

(** X10: the delay loop ends: started at [i = 0] it leaves the loop with
    [i = 100000] after exactly 100000 increments (fewer passes do not finish
    it, more change nothing), and the counter never wraps. *)
Theorem delay_ends_after_100000 (fuel : nat) :
  delay_count fuel 0
  = if 100000 <=? Z.of_nat fuel then Some 100000 else None.
Proof.
  destruct (Z.leb_spec 100000 (Z.of_nat fuel)) as [H | H].
  - replace fuel with (Z.to_nat 100000 + (fuel - Z.to_nat 100000))%nat by lia.
    apply delay_count_enough; lia.
  - apply delay_count_short; lia.
Qed.

(** ** The LED state from pass to pass *)

Lemma actuator_app (t1 t2 : list event) :
  forall prior, actuator prior (t1 ++ t2) = actuator (actuator prior t1) t2.
Proof.
  induction t1 as [| e t1 IH]; intros prior; cbn [app actuator].
  - reflexivity.
  - destruct e as [r w | r w |]; try apply IH. destruct r; apply IH.
Qed.

Lemma trace_loop_snoc (dev : device) (body : prog unit) (n : nat) :
  forall hist,
    trace dev hist (loop (S n) body)
    = trace dev hist (loop n body)
        ++ trace dev (rev (trace dev hist (loop n body)) ++ hist) body.
Proof.
  induction n as [| n IH]; intros hist.
  - cbn [loop]. rewrite trace_bind. cbn [loop trace run snd app rev].
    apply app_nil_r.
  - change (loop (S (S n)) body) with (bind body (fun _ => loop (S n) body)).
    change (loop (S n) body) with (bind body (fun _ => loop n body)) at 2 3.
    rewrite !trace_bind, IH, rev_app_distr, <- !app_assoc. reflexivity.
Qed.

(** X13: the LEDs show the outcome of the latest pass whose conversion was
    complete: after one more pass the LED state is that pass's word when the
    completion bit (both bits, for the stall indicator) was set in the words
    it polled, and the state after the earlier passes otherwise. *)
Theorem leds_follow_latest_complete_pass
        (dev : device) (hist : list event) (n : nat) (prior : Z) :
  (let before := trace dev hist (Bargraph.main n) in
   let h := rev before ++ hist in
   let sw_word := sample dev h SW in
   let adc_read := sample dev (EvLoad SW sw_word :: h) (Bargraph.selected sw_word) in
   actuator prior (trace dev hist (Bargraph.main (S n)))
   = if Z.testbit adc_read 16
     then Bargraph.led_mask (Bargraph.led_count (Z.land adc_read 0xFFF))
     else actuator prior before)
  /\
  (let before := trace dev hist (Stall.main n) in
   let h := rev before ++ hist in
   let w0 := sample dev h ADC_CH0 in
   let w1 := sample dev (EvLoad ADC_CH0 w0 :: h) ADC_CH1 in
   actuator prior (trace dev hist (Stall.main (S n)))
   = if Z.testbit w0 16 && Z.testbit w1 16
     then Stall.led_word
            (Stall.stalling Stall.velocity_stall
               (Stall.current_velocity (Z.land w0 0xFFF))
               (Stall.current_AoA (Z.land w1 0xFFF)))
     else actuator prior before).
Proof.
  split.
  - intros before h sw_word adc_read.
    assert (T : trace dev hist (Bargraph.main (S n))
                = before ++ trace dev h Bargraph.iteration).
    { unfold h, before. rewrite !bargraph_main_trace, trace_loop_snoc.
      rewrite rev_app_distr, <- !app_assoc. reflexivity. }
    rewrite T, actuator_app, bargraph_iteration_trace.
    fold sw_word. fold adc_read. unfold Bargraph.selected.
    destruct (Z.land sw_word 1 =? 0); destruct (Z.testbit adc_read 16); reflexivity.
  - intros before h w0 w1.
    assert (T : trace dev hist (Stall.main (S n))
                = before ++ trace dev h (Stall.iteration Stall.velocity_stall)).
    { unfold h, before. rewrite !stall_main_trace, trace_loop_snoc.
      rewrite rev_app_distr, <- !app_assoc. reflexivity. }
    rewrite T, actuator_app, stall_iteration_trace.
    fold w0. fold w1.
    destruct (Z.testbit w0 16 && Z.testbit w1 16); reflexivity.
Qed.
